(** * Feedback worker: parsing of the model reply, ingestion and aggregate counts

    Shallow embedding of [src/index.ts] (the Cloudflare worker's [fetch]
    handler) and of the seed script of the [feedback] table.

    - JavaScript strings are sequences of UTF-16 code units ([list N]).
    - [String.prototype.split], [trim] and [includes] are written out.
    - The POST branch runs in a state-and-exception monad whose state
      survives a throw, as side effects do in JavaScript. *)

From Stdlib Require Import List NArith ZArith String Ascii Bool Arith Lia.
From Stdlib Require Import Sorting.Sorted Sorting.Permutation.
Import ListNotations.

(* ===================================================================== *)
(** ** JavaScript strings *)
(* ===================================================================== *)

Module Js.

(** A string is the list of its UTF-16 code units. *)
Definition jsstring := list N.

(** An ASCII literal of the source, as code units. *)
Definition lit (s : string) : jsstring :=
  map N_of_ascii (list_ascii_of_string s).

(** ToBoolean on a string: only the empty string is falsy. *)
Definition truthy (s : jsstring) : bool :=
  match s with
  | [] => false
  | _ :: _ => true
  end.

(** WhiteSpace and LineTerminator code points of ECMAScript, the ones
    [trim] strips: TAB, LF, VT, FF, CR, SP, NBSP, U+1680, U+2000..U+200A,
    U+2028, U+2029, U+202F, U+205F, U+3000 and U+FEFF. *)
Definition is_white_space (c : N) : bool :=
  match c with
  | 9 | 10 | 11 | 12 | 13 | 32 | 160 | 5760
  | 8232 | 8233 | 8239 | 8287 | 12288 | 65279 => true
  | _ => (8192 <=? c) && (c <=? 8202)
  end%N.

Fixpoint trimStart (s : jsstring) : jsstring :=
  match s with
  | [] => []
  | c :: s' => if is_white_space c then trimStart s' else s
  end.

Definition trimEnd (s : jsstring) : jsstring :=
  rev (trimStart (rev s)).

(** [s.trim()] *)
Definition trim (s : jsstring) : jsstring :=
  trimEnd (trimStart s).

(** [split_run sep s] is the run of [s] up to the first [sep] together
    with the runs that follow it. *)
Fixpoint split_run (sep : N) (s : jsstring) : jsstring * list jsstring :=
  match s with
  | [] => ([], [])
  | c :: s' =>
      let (p, ps) := split_run sep s' in
      if (c =? sep)%N then ([], p :: ps) else (c :: p, ps)
  end.

(** [s.split(sep)] for a separator of one code unit and no limit: one
    part per occurrence of the separator plus one, so never empty. *)
Definition split (sep : N) (s : jsstring) : list jsstring :=
  let (p, ps) := split_run sep s in p :: ps.

Fixpoint startsWith (s t : jsstring) : bool :=
  match t, s with
  | [], _ => true
  | _ :: _, [] => false
  | b :: t', a :: s' => (a =? b)%N && startsWith s' t'
  end.

(** [s.includes(t)]: [t] occurs in [s] at some position. *)
Fixpoint includes (s t : jsstring) : bool :=
  startsWith s t ||
  match s with
  | [] => false
  | _ :: s' => includes s' t
  end.

End Js.

Import Js.

(** The separator the worker asks the model for. *)
Definition pipe : N := 124.

(* ===================================================================== *)
(** ** Parsing the model reply (index.ts, lines 32 to 36) *)
(* ===================================================================== *)

(** [part ? part.trim() : fallback], where [part] is an array element and
    so may be [undefined] ([None]). *)
Definition trimmed_or (part : option jsstring) (fallback : jsstring) : jsstring :=
  match part with
  | Some p => if truthy p then trim p else fallback
  | None => fallback
  end.

(** The pair [(sentiment, summary)] computed from [rawText]. *)
Definition parse (rawText : jsstring) : jsstring * jsstring :=
  let parts := split pipe rawText in
  let sentiment := trimmed_or (nth_error parts 0) (lit "Neutral") in
  let summary := trimmed_or (nth_error parts 1) rawText in
  (sentiment, summary).


(** *** The split as the specification words it

    "Split raw on the first | character into at most two parts": the text
    before the first separator, and the whole text after it when there is
    one. Used only to state what the specification says, never by the
    worker. *)
Fixpoint spec_split_first (raw : jsstring) : jsstring * option jsstring :=
  match raw with
  | [] => ([], None)
  | c :: s =>
      if (c =? pipe)%N then ([], Some s)
      else let (p0, p1) := spec_split_first s in (c :: p0, p1)
  end.

(** "part 0 trimmed of whitespace if part 0 is non-empty after trimming;
    otherwise the literal Neutral". *)
Definition spec_sentiment (raw : jsstring) : jsstring :=
  let p0 := trim (fst (spec_split_first raw)) in
  if truthy p0 then p0 else lit "Neutral".

(** "part 1 trimmed if present and non-empty; otherwise the full untrimmed
    raw string", non-empty being judged after trimming. *)
Definition spec_summary (raw : jsstring) : jsstring :=
  match snd (spec_split_first raw) with
  | Some p1 => if truthy (trim p1) then trim p1 else raw
  | None => raw
  end.

Definition count_pipes (raw : jsstring) : nat :=
  count_occ N.eq_dec raw pipe.

(* ===================================================================== *)
(** ** The [feedback] table *)
(* ===================================================================== *)

(** A row of [feedback (id INTEGER PRIMARY KEY, customer_text TEXT,
    sentiment TEXT, summary TEXT)]; [None] is SQL NULL. *)
Record row := mkRow {
  id : Z;
  customer_text : option jsstring;
  sentiment : option jsstring;
  summary : option jsstring
}.

(** Rowid given to a row inserted without an id: one more than the
    largest in the table, 1 in an empty table. *)
Definition next_rowid (tbl : list row) : Z :=
  (1 + fold_right Z.max 0 (map id tbl))%Z.

Definition insert_row (tbl : list row)
    (text sentiment summary : option jsstring) : list row :=
  tbl ++ [mkRow (next_rowid tbl) text sentiment summary].

(** The seed script: the table is dropped and created, then three rows are
    inserted with [customer_text] only. *)
Definition seed_texts : list jsstring :=
  [ lit "The login page keeps crashing when I use Firefox. It is super frustrating!";
    lit "I love the new dark mode, it looks amazing. Great job team!";
    lit "The API documentation is outdated and very confusing." ].

Definition seed_feedback : list row :=
  fold_left (fun tbl t => insert_row tbl (Some t) None None) seed_texts [].

(** [SELECT * FROM feedback ORDER BY id DESC] *)
Fixpoint insert_desc (r : row) (sorted : list row) : list row :=
  match sorted with
  | [] => [r]
  | x :: rest =>
      if (id x <=? id r)%Z then r :: sorted else x :: insert_desc r rest
  end.

Definition select_all_desc (tbl : list row) : list row :=
  fold_right insert_desc [] tbl.

(* ===================================================================== *)
(** ** Aggregate counts (index.ts, lines 60 to 62) *)
(* ===================================================================== *)

(** [r.sentiment || ''] *)
Definition sentiment_text (r : row) : jsstring :=
  match sentiment r with
  | Some s => if truthy s then s else []
  | None => []
  end.

(** [results.filter(r => (r.sentiment || '').includes(label)).length] *)
Definition count_label (label : jsstring) (results : list row) : nat :=
  List.length (filter (fun r => includes (sentiment_text r) label) results).

Record stats := mkStats { positive : nat; negative : nat; neutral : nat }.

Definition summarize (results : list row) : stats :=
  {| positive := count_label (lit "Positive") results;
     negative := count_label (lit "Negative") results;
     neutral := count_label (lit "Neutral") results |}.

(** A row known by its sentiment only, as in the examples of the
    specification. *)
Definition with_sentiment (s : string) : row :=
  mkRow 0 None (Some (lit s)) None.

(** [t] occurs in [s], as a proposition. *)
Definition contains (s t : jsstring) : Prop :=
  exists pre post, s = pre ++ t ++ post.

(* ===================================================================== *)
(** ** Values, exceptions and the worker's effects *)
(* ===================================================================== *)

(** The value of a property read through [any]: [undefined], [null], a
    string, or anything else (a number, a boolean, a stream, an object),
    of which only ToBoolean matters here. *)
Inductive jsval :=
| JUndefined
| JNull
| JString (s : jsstring)
| JOther (to_bool : bool).

Definition to_boolean (v : jsval) : bool :=
  match v with
  | JUndefined | JNull => false
  | JString s => truthy s
  | JOther b => b
  end.

(** [v || d] *)
Definition or_else (v d : jsval) : jsval :=
  if to_boolean v then v else d.

(** What [env.AI.run] resolves to: an object, of which the worker reads
    the [response] property only. *)
Record ai_reply := mkReply { response : jsval }.

Record message := mkMessage { role : jsstring; content : jsstring }.

Inductive exn :=
| AiError      (* [env.AI.run] rejected *)
| TypeError    (* [rawText.split] is not a function *)
| D1Error.     (* the INSERT statement's [run] rejected *)

Inductive event :=
| AiRun (model : jsstring) (messages : list message)
| DbInsert (text sentiment summary : jsstring) (accepted : bool).

(** The table and the calls made to the two bindings so far. *)
Record world := mkWorld { feedback : list row; trace : list event }.

(** The bindings [env.AI] and [env.DB]: whether a call succeeds may depend
    on everything that happened before it. [AI_run] gives [None] when the
    model call rejects; [DB_accepts] is false when the INSERT rejects. *)
Record Env := mkEnv {
  AI_run : list event -> jsstring -> list message -> option ai_reply;
  DB_accepts : list event -> jsstring -> jsstring -> jsstring -> bool
}.

Inductive completion (A : Type) :=
| Normal (a : A)
| Throw (e : exn).

Arguments Normal {A} a.
Arguments Throw {A} e.

(** State and exceptions; the state is kept when an exception is thrown. *)
Definition M (A : Type) : Type := world -> completion A * world.

Definition ret {A} (a : A) : M A := fun w => (Normal a, w).

Definition throw {A} (e : exn) : M A := fun w => (Throw e, w).

Definition bind {A B} (m : M A) (k : A -> M B) : M B :=
  fun w =>
    match m w with
    | (Normal a, w') => k a w'
    | (Throw e, w') => (Throw e, w')
    end.

(** [try { m } catch (err) { h err }] *)
Definition try_catch {A} (m : M A) (h : exn -> M A) : M A :=
  fun w =>
    match m w with
    | (Normal a, w') => (Normal a, w')
    | (Throw e, w') => h e w'
    end.

Declare Scope worker_scope.
Delimit Scope worker_scope with worker.
Notation "x <- m ;; k" := (bind m (fun x => k))
  (at level 61, m at next level, right associativity) : worker_scope.
Notation "m ;; k" := (bind m (fun _ => k))
  (at level 61, right associativity) : worker_scope.
Local Open Scope worker_scope.

(** [await env.AI.run(model, { messages })] *)
Definition ai_run (env : Env) (model : jsstring) (messages : list message)
  : M ai_reply :=
  fun w =>
    let w' := mkWorld (feedback w) (trace w ++ [AiRun model messages]) in
    match AI_run env (trace w) model messages with
    | Some reply => (Normal reply, w')
    | None => (Throw AiError, w')
    end.

(** [await env.DB.prepare("INSERT INTO feedback (customer_text, sentiment,
    summary) VALUES (?, ?, ?)").bind(text, sentiment, summary).run()] *)
Definition db_insert (env : Env) (text sentiment summary : jsstring) : M unit :=
  fun w =>
    let ok := DB_accepts env (trace w) text sentiment summary in
    let tr := trace w ++ [DbInsert text sentiment summary ok] in
    if ok
    then (Normal tt,
          mkWorld (insert_row (feedback w) (Some text) (Some sentiment) (Some summary)) tr)
    else (Throw D1Error, mkWorld (feedback w) tr).

(** *** The POST branch (index.ts, lines 13 to 53) *)

Definition quoted (s : string) : jsstring := 34%N :: lit s ++ [34%N].

Definition model_name : jsstring := lit "@cf/meta/llama-3-8b-instruct".

Definition system_prompt : jsstring :=
  lit "Analyze the sentiment of the user text. Reply with ONLY "
  ++ quoted "Positive" ++ lit ", " ++ quoted "Negative" ++ lit ", or "
  ++ quoted "Neutral" ++ lit ", followed by a pipe character " ++ quoted "|"
  ++ lit ", followed by a 5-word summary. Example: "
  ++ quoted "Positive | User loved the login flow".

Definition error_sentiment : jsstring := lit "Error".
Definition error_summary : jsstring := lit "AI analysis failed".

(** The [messages] passed to the model: the fixed instruction, then the
    submitted text as user content. *)
Definition prompt_messages (text : jsstring) : list message :=
  [mkMessage (lit "system") system_prompt; mkMessage (lit "user") text].

(** [(aiResponse as any).response || ""] *)
Definition raw_text (aiResponse : ai_reply) : jsval :=
  or_else (response aiResponse) (JString []).

(** The body of the [try] block. [rawText.split] throws a TypeError when
    [rawText] is not a string. *)
Definition classify_and_save (env : Env) (text : jsstring) : M unit :=
  aiResponse <- ai_run env model_name (prompt_messages text) ;;
  match raw_text aiResponse with
  | JString rawText =>
      let (sentiment, summary) := parse rawText in
      db_insert env text sentiment summary
  | _ => throw TypeError
  end.

(** [if (text) { try { ... } catch (err) { ... } }], with [text] the form
    field [feedback], [None] when the form has no such field. *)
Definition ingest (env : Env) (text : option jsstring) : M unit :=
  match text with
  | Some t =>
      if truthy t
      then try_catch (classify_and_save env t)
             (fun _ => db_insert env t error_sentiment error_summary)
      else ret tt
  | None => ret tt
  end.

Record request := mkRequest {
  method : jsstring;
  url : jsstring;
  form_feedback : option jsstring
}.

(** The two responses of the worker; the dashboard page is kept as the data
    its template is filled with. *)
Inductive http_response :=
| Redirect (location : jsstring) (status : Z)
| Dashboard (results : list row) (counts : stats).

(** The [fetch] handler. The SELECT of the GET branch is taken to succeed. *)
Definition fetch (env : Env) (req : request) : M http_response :=
  if list_eq_dec N.eq_dec (method req) (lit "POST")
  then ingest env (form_feedback req) ;; ret (Redirect (url req) 303)
  else fun w =>
         let results := select_all_desc (feedback w) in
         (Normal (Dashboard results (summarize results)), w).

(** Rows and events added between two worlds. *)
Definition new_rows (w w' : world) : list row :=
  skipn (List.length (feedback w)) (feedback w').

Definition new_events (w w' : world) : list event :=
  skipn (List.length (trace w)) (trace w').

Definition is_insert (e : event) : bool :=
  match e with
  | DbInsert _ _ _ _ => true
  | AiRun _ _ => false
  end.

Definition is_ai_run (e : event) : bool :=
  match e with
  | AiRun _ _ => true
  | DbInsert _ _ _ _ => false
  end.

(** Bindings for concrete runs. *)
Definition env_of (reply : option ai_reply) (accepts : nat -> bool) : Env :=
  mkEnv (fun _ _ _ => reply)
        (fun tr _ _ _ => accepts (List.length (filter is_insert tr))).

Definition empty_world : world := mkWorld [] [].

(* ===================================================================== *)
(** ** The rows of the dashboard table (index.ts, lines 143 to 155) *)
(* ===================================================================== *)

(** The class of the badge: three tests in a row, each overwriting the
    class the tests before it chose. *)
Definition badgeClass (r : row) : jsstring :=
  let sent := sentiment_text r in
  let c0 := lit "bg-Neutral" in
  let c1 := if includes sent (lit "Positive") then lit "bg-Positive" else c0 in
  let c2 := if includes sent (lit "Negative") then lit "bg-Negative" else c1 in
  if includes sent (lit "Error") then lit "bg-Error" else c2.

(** [field || placeholder] on a nullable column. *)
Definition or_placeholder (field : option jsstring) (placeholder : jsstring)
  : jsstring :=
  match field with
  | Some s => if truthy s then s else placeholder
  | None => placeholder
  end.

(** What the template of one row is filled with: the text cell, the badge
    class, the badge label [row.sentiment || 'Pending'] and the summary
    cell [row.summary || '...']. A NULL [customer_text] prints as [null]. *)
Record table_row := mkTableRow {
  cell_text : jsstring;
  cell_badge : jsstring;
  cell_label : jsstring;
  cell_summary : jsstring
}.

Definition render_row (r : row) : table_row :=
  {| cell_text := match customer_text r with Some t => t | None => lit "null" end;
     cell_badge := badgeClass r;
     cell_label := or_placeholder (sentiment r) (lit "Pending");
     cell_summary := or_placeholder (summary r) (lit "...") |}.

(* ===================================================================== *)
(** ** Predicates used in the statements *)
(* ===================================================================== *)

(** Every code unit of [s] is stripped by [trim]. *)
Definition all_white_space (s : jsstring) : bool :=
  forallb is_white_space s.


(** [l] lists rows by id, largest first. *)
Definition sorted_desc (l : list row) : Prop :=
  Sorted (fun a b => (id b <= id a)%Z) l.

(** The sentiment is exactly one of the three labels the prompt asks for. *)
Definition canonical (r : row) : Prop :=
  sentiment r = Some (lit "Positive") \/
  sentiment r = Some (lit "Negative") \/
  sentiment r = Some (lit "Neutral").

Definition text_of_insert (e : event) : option jsstring :=
  match e with
  | DbInsert t _ _ _ => Some t
  | AiRun _ _ => None
  end.

(* ===================================================================== *)
(** ** Facts about [split] *)
(* ===================================================================== *)

Section SplitFacts.

Lemma split_run_first (raw : jsstring) :
  split_run pipe raw =
  (fst (spec_split_first raw),
   match snd (spec_split_first raw) with
   | Some tl => split pipe tl
   | None => []
   end).
Proof.
  induction raw as [|c s IH]; [reflexivity|].
  cbn [split_run spec_split_first].
  destruct (c =? pipe)%N.
  - cbn [fst snd]. unfold split. now destruct (split_run pipe s).
  - rewrite IH. now destruct (spec_split_first s).
Qed.

(** Part 0 is the text before the first separator; the other parts are
    the parts of the text after it. *)
Lemma split_first (raw : jsstring) :
  split pipe raw =
  fst (spec_split_first raw) ::
  match snd (spec_split_first raw) with
  | Some tl => split pipe tl
  | None => []
  end.
Proof.
  unfold split at 1. now rewrite split_run_first.
Qed.

Lemma split_part0 (raw : jsstring) :
  nth_error (split pipe raw) 0 = Some (fst (spec_split_first raw)).
Proof. now rewrite split_first. Qed.

(** Part 1 stops at the second separator. *)
Lemma split_part1 (raw : jsstring) :
  nth_error (split pipe raw) 1 =
  match snd (spec_split_first raw) with
  | Some tl => Some (fst (spec_split_first tl))
  | None => None
  end.
Proof.
  rewrite split_first.
  destruct (snd (spec_split_first raw)) as [tl|]; [|reflexivity].
  apply (split_part0 tl).
Qed.

Lemma spec_split_first_app (p rest : jsstring) :
  count_pipes p = 0%nat ->
  spec_split_first (p ++ pipe :: rest) = (p, Some rest).
Proof.
  unfold count_pipes. induction p as [|c p IH]; intros Hc.
  - reflexivity.
  - cbn [app spec_split_first]. cbn [count_occ] in Hc.
    destruct (N.eq_dec c pipe) as [->|Hne]; [discriminate|].
    apply N.eqb_neq in Hne. rewrite Hne, (IH Hc). reflexivity.
Qed.

Lemma spec_split_first_no_pipe (p : jsstring) :
  count_pipes p = 0%nat -> spec_split_first p = (p, None).
Proof.
  unfold count_pipes. induction p as [|c p IH]; intros Hc.
  - reflexivity.
  - cbn [spec_split_first]. cbn [count_occ] in Hc.
    destruct (N.eq_dec c pipe) as [->|Hne]; [discriminate|].
    apply N.eqb_neq in Hne. rewrite Hne, (IH Hc). reflexivity.
Qed.

(** Joining the parts with the separator gives the text back. *)
Lemma split_join (raw : jsstring) :
  match split pipe raw with
  | [] => False
  | p :: ps => raw = p ++ List.concat (map (cons pipe) ps)
  end.
Proof.
  induction raw as [|c s IH]; [reflexivity|].
  unfold split in *. cbn [split_run].
  destruct (split_run pipe s) as [p ps].
  destruct (N.eqb_spec c pipe) as [->|_]; cbn; now rewrite IH at 1.
Qed.

End SplitFacts.

Lemma truthy_trim (p : jsstring) : truthy (trim p) = true -> truthy p = true.
Proof. destruct p; [discriminate|reflexivity]. Qed.

(* ===================================================================== *)
(** ** The parser *)
(* ===================================================================== *)

(** The four examples of the specification that the worker agrees with. *)
Example parse_examples :
  parse (lit "Positive | Great app") = (lit "Positive", lit "Great app") /\
  parse (lit "NegativeNoSeparator") =
    (lit "NegativeNoSeparator", lit "NegativeNoSeparator") /\
  parse [] = (lit "Neutral", []) /\
  parse (lit "Positive|") = (lit "Positive", lit "Positive|").
Proof. repeat split. Qed.

(** The summary in terms of the text around the first two separators. *)
Lemma parse_summary (raw : jsstring) :
  snd (parse raw) =
  match snd (spec_split_first raw) with
  | Some tl =>
      if truthy (fst (spec_split_first tl))
      then trim (fst (spec_split_first tl))
      else raw
  | None => raw
  end.
Proof.
  unfold parse. cbn [snd]. rewrite split_part1.
  now destruct (snd (spec_split_first raw)).
Qed.

Lemma parse_sentiment (raw : jsstring) :
  fst (parse raw) =
  if truthy (fst (spec_split_first raw))
  then trim (fst (spec_split_first raw))
  else lit "Neutral".
Proof.
  unfold parse. cbn [fst]. now rewrite split_part0.
Qed.

(** C1, as the specification states it, fails on the reply [a|b|c]: it has
    two separators and the text after the first one is [b|c], yet the
    summary is [b]. [split] cuts at every separator and the worker reads
    part 1 only, so the text from the second separator on is dropped. *)
Lemma parse_multi_pipe_counterexample :
  (2 <= count_pipes (lit "a|b|c"))%nat /\
  snd (spec_split_first (lit "a|b|c")) = Some (lit "b|c") /\
  split pipe (lit "a|b|c") = [lit "a"; lit "b"; lit "c"] /\
  snd (parse (lit "a|b|c")) = lit "b" /\
  snd (parse (lit "a|b|c")) <> lit "b|c" /\
  snd (parse (lit "a|b|c")) <> trim (lit "b|c").
Proof.
  repeat split; try discriminate. vm_compute. lia.
Qed.

(** C1, amended: when the reply has two or more separators, so that it
    reads [p0|p1|rest] with no separator in [p0] or [p1], the summary is
    [p1] trimmed when [p1] is non-empty and the whole reply when [p1] is
    empty; [rest] and the second separator never reach the summary of a
    non-empty [p1]. *)
Theorem parse_multi_pipe (p0 p1 rest : jsstring) :
  count_pipes p0 = 0%nat ->
  count_pipes p1 = 0%nat ->
  snd (parse (p0 ++ pipe :: p1 ++ pipe :: rest)) =
  if truthy p1 then trim p1 else p0 ++ pipe :: p1 ++ pipe :: rest.
Proof.
  intros H0 H1. rewrite parse_summary.
  rewrite (@spec_split_first_app p0 (p1 ++ pipe :: rest) H0). cbn [snd].
  now rewrite (@spec_split_first_app p1 rest H1).
Qed.

Lemma parse_multi_pipe_witness :
  count_pipes (lit "Positive ") = 0%nat /\
  count_pipes (lit " Great ") = 0%nat /\
  snd (parse (lit "Positive | Great | app")) = lit "Great".
Proof.
  split; [reflexivity|]. split; [reflexivity|].
  exact (@parse_multi_pipe (lit "Positive ") (lit " Great ") (lit " app")
           eq_refl eq_refl).
Defined.

(** C2, as the specification states it, fails on the reply made of one
    space: part 0 is that space, it is empty after trimming, and the
    specification asks for [Neutral]; the worker tests part 0 before
    trimming it and returns the empty string. *)
Lemma parse_blank_sentiment_counterexample :
  fst (spec_split_first (lit " ")) = lit " " /\
  trim (lit " ") = [] /\
  spec_sentiment (lit " ") = lit "Neutral" /\
  fst (parse (lit " ")) = [] /\
  fst (parse (lit " ")) <> spec_sentiment (lit " ").
Proof.
  repeat split; discriminate.
Qed.

(** C2, amended: the sentiment is part 0 (the text before the first
    separator) trimmed when part 0 is non-empty before trimming, and
    [Neutral] when part 0 is empty. It is what the specification states
    except when part 0 is non-empty and all whitespace, where it is the
    empty string. *)
Theorem parse_sentiment_guard_before_trim (raw : jsstring) :
  fst (parse raw) =
    (if truthy (fst (spec_split_first raw))
     then trim (fst (spec_split_first raw))
     else lit "Neutral") /\
  fst (parse raw) =
    (if truthy (fst (spec_split_first raw))
        && negb (truthy (trim (fst (spec_split_first raw))))
     then []
     else spec_sentiment raw).
Proof.
  split; [apply parse_sentiment|].
  rewrite parse_sentiment. unfold spec_sentiment.
  destruct (truthy (fst (spec_split_first raw))) eqn:E0;
    destruct (truthy (trim (fst (spec_split_first raw)))) eqn:E1;
    cbn [andb negb]; try reflexivity.
  - now destruct (trim (fst (spec_split_first raw))).
  - apply truthy_trim in E1. congruence.
Qed.

(** C3, as the specification states it, fails on its own example: for the
    reply [ Neutral |  ] part 1 is two spaces, which is a non-empty string,
    so the worker trims it and the summary is the empty string, not the
    reply. *)
Lemma parse_blank_summary_counterexample :
  nth_error (split pipe (lit " Neutral |  ")) 1 = Some (lit "  ") /\
  spec_summary (lit " Neutral |  ") = lit " Neutral |  " /\
  parse (lit " Neutral |  ") = (lit "Neutral", []) /\
  parse (lit " Neutral |  ") <> (lit "Neutral", lit " Neutral |  ") /\
  snd (parse (lit " Neutral |  ")) <> spec_summary (lit " Neutral |  ").
Proof.
  repeat split; discriminate.
Qed.

(** C3, amended: the summary is part 1 (the text between the first
    separator and the next one, or the end) trimmed when part 1 is present
    and non-empty before trimming, and the full untrimmed reply otherwise;
    in particular the reply [ Neutral |  ] gives sentiment [Neutral] and
    the empty summary. *)
Theorem parse_summary_guard_before_trim (raw : jsstring) :
  snd (parse raw) =
    match snd (spec_split_first raw) with
    | Some tl =>
        if truthy (fst (spec_split_first tl))
        then trim (fst (spec_split_first tl))
        else raw
    | None => raw
    end /\
  parse (lit " Neutral |  ") = (lit "Neutral", []).
Proof.
  split; [apply parse_summary|reflexivity].
Qed.

(* ===================================================================== *)
(** ** Ingestion *)
(* ===================================================================== *)

Lemma skipn_length_app {A} (l l' : list A) : skipn (List.length l) (l ++ l') = l'.
Proof. induction l; [reflexivity|assumption]. Qed.

Lemma skipn_length_self {A} (l : list A) : skipn (List.length l) l = [].
Proof. induction l; [reflexivity|assumption]. Qed.

(** What [ingest] does on a non-empty text, call by call. *)
Lemma ingest_run (env : Env) (w : world) (t : jsstring) :
  truthy t = true ->
  ingest env (Some t) w =
  let w1 := mkWorld (feedback w) (trace w ++ [AiRun model_name (prompt_messages t)]) in
  let fallback := db_insert env t error_sentiment error_summary in
  match AI_run env (trace w) model_name (prompt_messages t) with
  | Some reply =>
      match raw_text reply with
      | JString raw =>
          try_catch (db_insert env t (fst (parse raw)) (snd (parse raw)))
            (fun _ => fallback) w1
      | _ => fallback w1
      end
  | None => fallback w1
  end.
Proof.
  intros Ht. unfold ingest. rewrite Ht.
  unfold try_catch, classify_and_save, bind, ai_run, throw.
  destruct (AI_run env (trace w) model_name (prompt_messages t)) as [reply|];
    [|reflexivity].
  destruct (raw_text reply); reflexivity.
Qed.

(** [ingest] completes normally or throws the store's error; the error of
    the model call and the TypeError of the parsing step are caught. *)
Lemma ingest_outcome (env : Env) (w : world) (text : option jsstring) :
  fst (ingest env text w) = Normal tt \/ fst (ingest env text w) = Throw D1Error.
Proof.
  destruct text as [t|]; [|now left].
  destruct (truthy t) eqn:Ht; [|unfold ingest; rewrite Ht; now left].
  rewrite (ingest_run env w t Ht). cbv zeta.
  assert (Hfb : forall w1,
             fst (db_insert env t error_sentiment error_summary w1) = Normal tt \/
             fst (db_insert env t error_sentiment error_summary w1) = Throw D1Error).
  { intros w1. unfold db_insert.
    destruct (DB_accepts env (trace w1) t error_sentiment error_summary); auto. }
  destruct (AI_run env (trace w) model_name (prompt_messages t)) as [reply|];
    [|apply Hfb].
  destruct (raw_text reply) as [| |raw|b]; try apply Hfb.
  unfold try_catch.
  destruct (db_insert env t (fst (parse raw)) (snd (parse raw)) _)
    as [[[]|e] w2]; [now left|apply Hfb].
Qed.

(** Whatever the bindings do, a run of [ingest] on a non-empty text adds
    one row or none: one, with the submitted text, exactly when it
    completes normally, and none when it throws. The parsed record and the
    error record are never both written. *)
Lemma ingest_rows_by_outcome (env : Env) (w : world) (t : jsstring) :
  truthy t = true ->
  (fst (ingest env (Some t) w) = Normal tt /\
   exists r, new_rows w (snd (ingest env (Some t) w)) = [r] /\
             customer_text r = Some t) \/
  (fst (ingest env (Some t) w) = Throw D1Error /\
   new_rows w (snd (ingest env (Some t) w)) = []).
Proof.
  intros Ht. rewrite (ingest_run env w t Ht). cbv zeta.
  assert (Hfb : forall tr,
             let r := db_insert env t error_sentiment error_summary
                        (mkWorld (feedback w) tr) in
             (fst r = Normal tt /\
              exists x, new_rows w (snd r) = [x] /\ customer_text x = Some t) \/
             (fst r = Throw D1Error /\ new_rows w (snd r) = [])).
  { intros tr. cbv zeta. unfold db_insert, new_rows, insert_row.
    cbn [trace feedback].
    destruct (DB_accepts env tr t error_sentiment error_summary);
      cbn [fst snd feedback].
    - left. split; [reflexivity|].
      eexists. split; [apply skipn_length_app|reflexivity].
    - right. now rewrite skipn_length_self. }
  destruct (AI_run env (trace w) model_name (prompt_messages t)) as [reply|];
    [|apply Hfb].
  destruct (raw_text reply) as [| |raw|b]; try apply Hfb.
  unfold try_catch.
  destruct (db_insert env t (fst (parse raw)) (snd (parse raw)) _)
    as [c w2] eqn:E.
  unfold db_insert in E. cbn [trace feedback] in E.
  destruct (DB_accepts env _ t (fst (parse raw)) (snd (parse raw)));
    injection E as <- <-.
  - left. split; [reflexivity|]. unfold new_rows, insert_row.
    cbn [snd feedback].
    eexists. split; [apply skipn_length_app|reflexivity].
  - apply Hfb.
Qed.

(** C4, evaluated on the worker: the model call rejects, and the store
    rejects the write of the error record made in the [catch] block. That
    write is not guarded, so its rejection leaves [ingest] and [fetch] as a
    throw: no redirect is returned. The same happens when the model replies
    and the store rejects both the first write and the write of the error
    record. *)
Theorem ingest_fallback_failure_escapes :
  ingest (env_of None (fun _ => false)) (Some (lit "X")) empty_world =
    (Throw D1Error,
     mkWorld []
       [AiRun model_name (prompt_messages (lit "X"));
        DbInsert (lit "X") (lit "Error") (lit "AI analysis failed") false]) /\
  fst (fetch (env_of None (fun _ => false))
         (mkRequest (lit "POST") (lit "https://feedback.example/") (Some (lit "X")))
         empty_world) = Throw D1Error /\
  fetch (env_of (Some (mkReply (JString (lit "Positive | Great app"))))
           (fun _ => false))
    (mkRequest (lit "POST") (lit "https://feedback.example/") (Some (lit "X")))
    empty_world =
    (Throw D1Error,
     mkWorld []
       [AiRun model_name (prompt_messages (lit "X"));
        DbInsert (lit "X") (lit "Positive") (lit "Great app") false;
        DbInsert (lit "X") (lit "Error") (lit "AI analysis failed") false]).
Proof.
  repeat split.
Qed.

(** C5: for a non-empty text, when the store accepts the write that follows
    the model call, [ingest] completes normally and adds exactly one row.
    Its [customer_text] is the submitted text and its id is the next rowid;
    it carries the parsed sentiment and summary when the model replied with
    a string, and the error record otherwise; one INSERT was attempted. *)
Theorem ingest_writes_one_record (env : Env) (w : world) (t : jsstring) :
  truthy t = true ->
  (forall s m,
      DB_accepts env (trace w ++ [AiRun model_name (prompt_messages t)]) t s m = true) ->
  exists r,
    fst (ingest env (Some t) w) = Normal tt /\
    feedback (snd (ingest env (Some t) w)) = feedback w ++ [r] /\
    new_rows w (snd (ingest env (Some t) w)) = [r] /\
    customer_text r = Some t /\
    id r = next_rowid (feedback w) /\
    (sentiment r, summary r) =
      match AI_run env (trace w) model_name (prompt_messages t) with
      | Some reply =>
          match raw_text reply with
          | JString raw => (Some (fst (parse raw)), Some (snd (parse raw)))
          | _ => (Some (lit "Error"), Some (lit "AI analysis failed"))
          end
      | None => (Some (lit "Error"), Some (lit "AI analysis failed"))
      end /\
    List.length (filter is_insert (new_events w (snd (ingest env (Some t) w)))) = 1%nat.
Proof.
  intros Ht Hok. rewrite (ingest_run env w t Ht). cbv zeta.
  destruct (AI_run env (trace w) model_name (prompt_messages t)) as [reply|];
    [destruct (raw_text reply) as [| |raw|b]|];
    unfold try_catch, db_insert; cbn [trace feedback]; rewrite Hok;
    eexists; cbn [fst snd feedback trace]; unfold new_rows, new_events, insert_row;
    cbn [feedback trace]; rewrite <- app_assoc, !skipn_length_app;
    repeat split.
Qed.

Lemma ingest_writes_one_record_witness :
  exists r,
    fst (ingest (env_of (Some (mkReply (JString (lit "Positive | Great app"))))
                   (fun _ => true))
           (Some (lit "Great app!")) empty_world) = Normal tt /\
    feedback (snd (ingest (env_of (Some (mkReply (JString (lit "Positive | Great app"))))
                             (fun _ => true))
                     (Some (lit "Great app!")) empty_world)) = [r] /\
    r = mkRow 1 (Some (lit "Great app!")) (Some (lit "Positive")) (Some (lit "Great app")).
Proof.
  destruct (ingest_writes_one_record
              (env_of (Some (mkReply (JString (lit "Positive | Great app"))))
                 (fun _ => true))
              empty_world (lit "Great app!") eq_refl (fun _ _ => eq_refl))
    as [r (Hn & Hf & _)].
  exists r. split; [exact Hn|]. split; [exact Hf|].
  injection Hf as <-. reflexivity.
Defined.

(** C6: when the form field is absent or the empty string, [ingest] leaves
    the world as it was: no row is added and no call is made to the model
    or to the store; the POST request still gets the 303 redirect. *)
Theorem ingest_empty_is_noop (env : Env) (w : world) (u : jsstring) :
  ingest env None w = (Normal tt, w) /\
  ingest env (Some []) w = (Normal tt, w) /\
  new_rows w (snd (ingest env None w)) = [] /\
  new_rows w (snd (ingest env (Some []) w)) = [] /\
  filter is_ai_run (new_events w (snd (ingest env None w))) = [] /\
  filter is_ai_run (new_events w (snd (ingest env (Some []) w))) = [] /\
  fetch env (mkRequest (lit "POST") u None) w = (Normal (Redirect u 303), w) /\
  fetch env (mkRequest (lit "POST") u (Some [])) w = (Normal (Redirect u 303), w).
Proof.
  unfold new_rows, new_events. cbn [ingest truthy ret snd].
  rewrite !skipn_length_self. repeat split.
Qed.

(** C7: for a non-empty text, when the model call rejects, the only write
    attempted is the error record: [customer_text] the submitted text,
    sentiment [Error], summary [AI analysis failed]. When the store accepts
    it, it is the one row added and [ingest] completes normally; when the
    store rejects it, no row is added. The model's error never leaves
    [ingest]. *)
Theorem ingest_model_failure_sentinel (env : Env) (w : world) (t : jsstring) :
  truthy t = true ->
  AI_run env (trace w) model_name (prompt_messages t) = None ->
  fst (ingest env (Some t) w) <> Throw AiError /\
  new_events w (snd (ingest env (Some t) w)) =
    [AiRun model_name (prompt_messages t);
     DbInsert t (lit "Error") (lit "AI analysis failed")
       (DB_accepts env (trace w ++ [AiRun model_name (prompt_messages t)])
          t (lit "Error") (lit "AI analysis failed"))] /\
  (if DB_accepts env (trace w ++ [AiRun model_name (prompt_messages t)])
        t (lit "Error") (lit "AI analysis failed")
   then fst (ingest env (Some t) w) = Normal tt /\
        new_rows w (snd (ingest env (Some t) w)) =
          [mkRow (next_rowid (feedback w)) (Some t)
             (Some (lit "Error")) (Some (lit "AI analysis failed"))]
   else new_rows w (snd (ingest env (Some t) w)) = []).
Proof.
  intros Ht Hai. split.
  - destruct (ingest_outcome env w (Some t)) as [-> | ->]; discriminate.
  - rewrite (ingest_run env w t Ht), Hai. cbv zeta.
    unfold db_insert, new_rows, new_events, insert_row, error_sentiment,
      error_summary.
    cbn [trace feedback].
    destruct (DB_accepts env _ t (lit "Error") (lit "AI analysis failed"));
      cbn [fst snd feedback trace];
      rewrite <- app_assoc, skipn_length_app;
      rewrite ?skipn_length_app, ?skipn_length_self; repeat split.
Qed.

Lemma ingest_model_failure_sentinel_witness :
  fst (ingest (env_of None (fun _ => true)) (Some (lit "X")) empty_world)
    <> Throw AiError /\
  ingest (env_of None (fun _ => true)) (Some (lit "X")) empty_world =
    (Normal tt,
     mkWorld
       [mkRow 1 (Some (lit "X")) (Some (lit "Error")) (Some (lit "AI analysis failed"))]
       [AiRun model_name (prompt_messages (lit "X"));
        DbInsert (lit "X") (lit "Error") (lit "AI analysis failed") true]).
Proof.
  split; [|reflexivity].
  exact (proj1 (ingest_model_failure_sentinel (env_of None (fun _ => true))
                  empty_world (lit "X") eq_refl eq_refl)).
Defined.

(** C9: for a non-empty text, when the model call succeeds and the
    [response] property of its result is falsy (absent, so [undefined], or
    the empty string), the reply is read as the empty string and, the
    store accepting the write, the row added has sentiment [Neutral] and
    the empty summary, not the error record. That row counts in the
    neutral bucket like any neutral classification, and the non-empty
    reply [Neutral| ] is parsed to the same pair. *)
Theorem ingest_vacuous_reply_neutral
    (env : Env) (w : world) (t : jsstring) (reply : ai_reply) :
  truthy t = true ->
  AI_run env (trace w) model_name (prompt_messages t) = Some reply ->
  to_boolean (response reply) = false ->
  DB_accepts env (trace w ++ [AiRun model_name (prompt_messages t)])
    t (lit "Neutral") [] = true ->
  raw_text reply = JString [] /\
  ingest env (Some t) w =
    (Normal tt,
     mkWorld
       (feedback w ++
        [mkRow (next_rowid (feedback w)) (Some t) (Some (lit "Neutral")) (Some [])])
       (trace w ++
        [AiRun model_name (prompt_messages t); DbInsert t (lit "Neutral") [] true])) /\
  Some (lit "Neutral") <> Some error_sentiment /\
  summarize [mkRow (next_rowid (feedback w)) (Some t) (Some (lit "Neutral")) (Some [])]
    = mkStats 0 0 1 /\
  parse (lit "Neutral| ") = (lit "Neutral", []).
Proof.
  intros Ht Hai Hfalsy Hok.
  assert (Hraw : raw_text reply = JString [])
    by (unfold raw_text, or_else; now rewrite Hfalsy).
  split; [exact Hraw|]. split; [|repeat split; discriminate].
  rewrite (ingest_run env w t Ht), Hai, Hraw. cbv zeta.
  unfold try_catch, db_insert. cbn [trace feedback].
  change (fst (parse [])) with (lit "Neutral").
  change (snd (parse [])) with (@nil N).
  rewrite Hok. unfold insert_row. now rewrite <- app_assoc.
Qed.

Lemma ingest_vacuous_reply_neutral_witness :
  ingest (env_of (Some (mkReply JUndefined)) (fun _ => true))
    (Some (lit "meh")) empty_world =
    (Normal tt,
     mkWorld [mkRow 1 (Some (lit "meh")) (Some (lit "Neutral")) (Some [])]
       [AiRun model_name (prompt_messages (lit "meh"));
        DbInsert (lit "meh") (lit "Neutral") [] true]) /\
  ingest (env_of (Some (mkReply (JString []))) (fun _ => true))
    (Some (lit "meh")) empty_world =
    (Normal tt,
     mkWorld [mkRow 1 (Some (lit "meh")) (Some (lit "Neutral")) (Some [])]
       [AiRun model_name (prompt_messages (lit "meh"));
        DbInsert (lit "meh") (lit "Neutral") [] true]).
Proof.
  split.
  - exact (proj1 (proj2 (ingest_vacuous_reply_neutral
                           (env_of (Some (mkReply JUndefined)) (fun _ => true))
                           empty_world (lit "meh") (mkReply JUndefined)
                           eq_refl eq_refl eq_refl eq_refl))).
  - exact (proj1 (proj2 (ingest_vacuous_reply_neutral
                           (env_of (Some (mkReply (JString []))) (fun _ => true))
                           empty_world (lit "meh") (mkReply (JString []))
                           eq_refl eq_refl eq_refl eq_refl))).
Defined.

(* ===================================================================== *)
(** ** Aggregate counts *)
(* ===================================================================== *)

Section Includes.

Lemma startsWith_iff (t s : jsstring) :
  startsWith s t = true <-> exists post, s = t ++ post.
Proof.
  revert s. induction t as [|b t IH]; intros s.
  - split; [intros _; now exists s|now destruct s].
  - destruct s as [|a s]; cbn [startsWith].
    + split; [discriminate|intros [post H]; discriminate].
    + rewrite andb_true_iff, N.eqb_eq, IH. split.
      * intros [-> [post ->]]. now exists post.
      * intros [post H]. injection H as -> ->. split; [reflexivity|now exists post].
Qed.

Lemma includes_iff (s t : jsstring) :
  includes s t = true <-> contains s t.
Proof.
  unfold contains. induction s as [|a s IH]; cbn [includes];
    rewrite orb_true_iff, startsWith_iff.
  - split.
    + intros [[post H]|H]; [|discriminate]. now exists [], post.
    + intros [pre [post H]]. left. exists post.
      destruct pre; [exact H|discriminate].
  - rewrite IH. split.
    + intros [[post H]|[pre [post H]]].
      * now exists [], post.
      * exists (a :: pre), post. now rewrite H.
    + intros [[|a' pre] [post H]].
      * left. now exists post.
      * right. injection H as _ ->. now exists pre, post.
Qed.

End Includes.

Lemma count_label_cons (label : jsstring) (r : row) (rs : list row) :
  count_label label (r :: rs) =
  ((if includes (sentiment_text r) label then 1 else 0) + count_label label rs)%nat.
Proof.
  unfold count_label. cbn [filter].
  now destruct (includes (sentiment_text r) label).
Qed.

Lemma count_label_app (label : jsstring) (l1 l2 : list row) :
  count_label label (l1 ++ l2) = (count_label label l1 + count_label label l2)%nat.
Proof.
  unfold count_label. now rewrite filter_app, length_app.
Qed.

(** [r.sentiment || ''] is the field itself when the field is a string. *)
Lemma sentiment_text_some (i : Z) (t m : option jsstring) (s : jsstring) :
  sentiment_text (mkRow i t (Some s) m) = s.
Proof. now destruct s. Qed.

(** A row is counted for a label exactly when its sentiment contains it. *)
Lemma count_label_step (label s : jsstring) (i : Z) (t m : option jsstring)
    (rs : list row) :
  (contains s label <->
   count_label label (mkRow i t (Some s) m :: rs) = S (count_label label rs)) /\
  (~ contains s label <->
   count_label label (mkRow i t (Some s) m :: rs) = count_label label rs).
Proof.
  rewrite count_label_cons, sentiment_text_some, <- includes_iff.
  destruct (includes s label); split; split; intros H;
    try reflexivity; try discriminate; try lia; try congruence.
Qed.

(** C8: a row is counted in the positive, negative or neutral bucket if
    and only if its sentiment contains [Positive], [Negative] or [Neutral]
    as a substring, matched code unit by code unit (so case-sensitively);
    the buckets are independent. The example of the specification gives
    2, 1 and 0; a sentiment holding two labels is counted twice; a
    lower-case label is not counted. *)
Theorem summarize_counts_by_substring :
  (forall (i : Z) (t m : option jsstring) (s : jsstring) (rs : list row),
      (contains s (lit "Positive") <->
       positive (summarize (mkRow i t (Some s) m :: rs)) = S (positive (summarize rs))) /\
      (~ contains s (lit "Positive") <->
       positive (summarize (mkRow i t (Some s) m :: rs)) = positive (summarize rs)) /\
      (contains s (lit "Negative") <->
       negative (summarize (mkRow i t (Some s) m :: rs)) = S (negative (summarize rs))) /\
      (~ contains s (lit "Negative") <->
       negative (summarize (mkRow i t (Some s) m :: rs)) = negative (summarize rs)) /\
      (contains s (lit "Neutral") <->
       neutral (summarize (mkRow i t (Some s) m :: rs)) = S (neutral (summarize rs))) /\
      (~ contains s (lit "Neutral") <->
       neutral (summarize (mkRow i t (Some s) m :: rs)) = neutral (summarize rs))) /\
  summarize [] = mkStats 0 0 0 /\
  summarize [with_sentiment "Positive"; with_sentiment "Very Positive indeed";
             with_sentiment "Negative"; with_sentiment "Error"] = mkStats 2 1 0 /\
  summarize [with_sentiment "Positive and Negative"] = mkStats 1 1 0 /\
  summarize [with_sentiment "positive"; with_sentiment "NEUTRAL"] = mkStats 0 0 0.
Proof.
  split; [|repeat split].
  intros i t m s rs. cbn [summarize positive negative neutral].
  pose proof (count_label_step (lit "Positive") s i t m rs) as [? ?].
  pose proof (count_label_step (lit "Negative") s i t m rs) as [? ?].
  pose proof (count_label_step (lit "Neutral") s i t m rs) as [? ?].
  repeat split; tauto.
Qed.

(** C10: [summarize] has no failing case on a row whose sentiment is NULL:
    the field is read as the empty string, which contains none of the
    three labels, so such a row changes no count wherever it stands in the
    results. The three rows of the seed script are such rows: they have a
    [customer_text] and NULL sentiment and summary, and the dashboard
    computed on the seeded table shows 0, 0 and 0. *)
Theorem summarize_null_sentiment
    (env : Env) (i : Z) (t m : option jsstring) (l1 l2 : list row) :
  sentiment_text (mkRow i t None m) = [] /\
  summarize (l1 ++ mkRow i t None m :: l2) = summarize (l1 ++ l2) /\
  seed_feedback =
    [mkRow 1 (Some (nth 0 seed_texts [])) None None;
     mkRow 2 (Some (nth 1 seed_texts [])) None None;
     mkRow 3 (Some (nth 2 seed_texts [])) None None] /\
  summarize (select_all_desc seed_feedback) = mkStats 0 0 0 /\
  fetch env (mkRequest (lit "GET") (lit "https://feedback.example/") None)
    (mkWorld seed_feedback []) =
    (Normal (Dashboard (rev seed_feedback) (mkStats 0 0 0)),
     mkWorld seed_feedback []).
Proof.
  split; [reflexivity|]. split; [|repeat split].
  unfold summarize. rewrite !count_label_app, !count_label_cons.
  reflexivity.
Qed.

(* ===================================================================== *)
(** ** Facts about [trim] *)
(* ===================================================================== *)

Section TrimFacts.

Lemma trimStart_ws_app (ws s : jsstring) :
  all_white_space ws = true -> trimStart (ws ++ s) = trimStart s.
Proof.
  unfold all_white_space. induction ws as [|c ws IH]; cbn; [reflexivity|].
  intros H. apply andb_true_iff in H as [Hc Hws]. now rewrite Hc, IH.
Qed.

Lemma trimStart_snoc (l : jsstring) (c : N) :
  trimStart (l ++ [c]) =
  match trimStart l with
  | [] => if is_white_space c then [] else [c]
  | _ :: _ => trimStart l ++ [c]
  end.
Proof.
  induction l as [|a l IH]; cbn [app trimStart]; [reflexivity|].
  destruct (is_white_space a); [exact IH|reflexivity].
Qed.

Lemma trimEnd_cons (c : N) (r : jsstring) :
  trimEnd (c :: r) =
  match trimEnd r with
  | [] => if is_white_space c then [] else [c]
  | _ :: _ => c :: trimEnd r
  end.
Proof.
  unfold trimEnd. cbn [rev]. rewrite trimStart_snoc.
  destruct (trimStart (rev r)) as [|a l] eqn:E.
  - cbn [rev]. now destruct (is_white_space c).
  - rewrite rev_app_distr. cbn [rev app].
    destruct (rev l ++ [a]) eqn:E'; [|reflexivity].
    now destruct (rev l).
Qed.

Lemma all_white_space_rev (ws : jsstring) :
  all_white_space (rev ws) = all_white_space ws.
Proof.
  unfold all_white_space. induction ws as [|c ws IH]; [reflexivity|].
  cbn [rev forallb]. rewrite forallb_app, IH. cbn [forallb].
  now rewrite andb_true_r, andb_comm.
Qed.

Lemma trimEnd_app_ws (s ws : jsstring) :
  all_white_space ws = true -> trimEnd (s ++ ws) = trimEnd s.
Proof.
  intros H. unfold trimEnd. rewrite rev_app_distr, trimStart_ws_app;
    [reflexivity|now rewrite all_white_space_rev].
Qed.

(** Stripping the two ends can be done in either order. *)
Lemma trim_commute (s : jsstring) :
  trimEnd (trimStart s) = trimStart (trimEnd s).
Proof.
  induction s as [|c s IH]; [reflexivity|].
  rewrite (trimEnd_cons c s). cbn [trimStart].
  destruct (is_white_space c) eqn:Hc.
  - rewrite IH. destruct (trimEnd s) as [|y ys]; [reflexivity|].
    cbn [trimStart]. now rewrite Hc.
  - rewrite (trimEnd_cons c s).
    destruct (trimEnd s); rewrite ?Hc; cbn [trimStart]; now rewrite Hc.
Qed.

Lemma trimStart_idem (s : jsstring) : trimStart (trimStart s) = trimStart s.
Proof.
  induction s as [|c s IH]; [reflexivity|]. cbn [trimStart].
  destruct (is_white_space c) eqn:Hc; [exact IH|]. cbn [trimStart].
  now rewrite Hc.
Qed.

Lemma trimEnd_idem (s : jsstring) : trimEnd (trimEnd s) = trimEnd s.
Proof.
  unfold trimEnd. now rewrite rev_involutive, trimStart_idem.
Qed.

Lemma trimStart_trim (s : jsstring) : trimStart (trim s) = trim s.
Proof.
  unfold trim. now rewrite <- trim_commute, trimStart_idem.
Qed.

Lemma trimEnd_trim (s : jsstring) : trimEnd (trim s) = trim s.
Proof. unfold trim. apply trimEnd_idem. Qed.

Lemma trim_idem (s : jsstring) : trim (trim s) = trim s.
Proof.
  unfold trim at 1. now rewrite trimStart_trim, trimEnd_trim.
Qed.

(** Whitespace around a text does not change what [trim] returns. *)
Lemma trim_pad (pre x post : jsstring) :
  all_white_space pre = true -> all_white_space post = true ->
  trim (pre ++ x ++ post) = trim x.
Proof.
  intros Hpre Hpost. unfold trim.
  rewrite (trimStart_ws_app _ _ Hpre), trim_commute.
  rewrite (trimEnd_app_ws _ _ Hpost). symmetry. apply trim_commute.
Qed.

Lemma count_pipes_app (a b : jsstring) :
  count_pipes (a ++ b) = (count_pipes a + count_pipes b)%nat.
Proof. apply count_occ_app. Qed.

Lemma count_pipes_cons (c : N) (s : jsstring) :
  count_pipes (c :: s) = 0%nat <-> c <> pipe /\ count_pipes s = 0%nat.
Proof.
  unfold count_pipes. cbn [count_occ].
  destruct (N.eq_dec c pipe) as [->|Hne]; split; try discriminate; tauto.
Qed.

Lemma count_pipes_ws (ws : jsstring) :
  all_white_space ws = true -> count_pipes ws = 0%nat.
Proof.
  unfold all_white_space. induction ws as [|c ws IH]; [reflexivity|].
  cbn [forallb]. intros H. apply andb_true_iff in H as [Hc Hws].
  apply count_pipes_cons. split; [|now apply IH].
  intros ->. discriminate.
Qed.

Lemma count_pipes_trimStart (s : jsstring) :
  count_pipes s = 0%nat -> count_pipes (trimStart s) = 0%nat.
Proof.
  induction s as [|c s IH]; [reflexivity|]. intros H. cbn [trimStart].
  destruct (is_white_space c); [|exact H].
  apply IH. now apply count_pipes_cons in H.
Qed.

Lemma count_pipes_trimEnd (s : jsstring) :
  count_pipes s = 0%nat -> count_pipes (trimEnd s) = 0%nat.
Proof.
  induction s as [|c s IH]; [reflexivity|]. intros H.
  apply count_pipes_cons in H as [Hc Hs]. rewrite trimEnd_cons.
  specialize (IH Hs). destruct (trimEnd s) as [|y ys].
  - destruct (is_white_space c); [reflexivity|].
    now apply count_pipes_cons.
  - now apply count_pipes_cons.
Qed.

Lemma count_pipes_trim (s : jsstring) :
  count_pipes s = 0%nat -> count_pipes (trim s) = 0%nat.
Proof.
  intros H. unfold trim. now apply count_pipes_trimEnd, count_pipes_trimStart.
Qed.

Lemma count_pipes_part0 (raw : jsstring) :
  count_pipes (fst (spec_split_first raw)) = 0%nat.
Proof.
  induction raw as [|c s IH]; [reflexivity|]. cbn [spec_split_first].
  destruct (N.eqb_spec c pipe) as [->|Hne]; [reflexivity|].
  destruct (spec_split_first s) as [p0 p1]. cbn [fst] in *.
  now apply count_pipes_cons.
Qed.

End TrimFacts.

(* ===================================================================== *)
(** ** More on the parser *)
(* ===================================================================== *)

(** X1: the sentiment computed from a reply never begins or ends with a
    whitespace code unit: stripping either end again changes nothing. *)
Theorem parse_sentiment_is_trimmed (raw : jsstring) :
  trimStart (fst (parse raw)) = fst (parse raw) /\
  trimEnd (fst (parse raw)) = fst (parse raw) /\
  trim (fst (parse raw)) = fst (parse raw).
Proof.
  rewrite parse_sentiment.
  destruct (truthy (fst (spec_split_first raw))).
  - repeat split; [apply trimStart_trim|apply trimEnd_trim|apply trim_idem].
  - repeat split.
Qed.

(** X2: the sentiment computed from a reply never holds the separator. *)
Theorem parse_sentiment_has_no_pipe (raw : jsstring) :
  count_pipes (fst (parse raw)) = 0%nat.
Proof.
  rewrite parse_sentiment.
  destruct (truthy (fst (spec_split_first raw))); [|reflexivity].
  apply count_pipes_trim, count_pipes_part0.
Qed.

(** X3: a reply in the format the prompt asks for is read back exactly. For
    a label and a summary that are non-empty, hold no separator and have
    no whitespace at their ends, the reply made of the label, the
    separator and the summary, with any whitespace before, between and
    after them, is parsed to that label and that summary. *)
Theorem parse_well_formed_reply (label summ pre mid1 mid2 post : jsstring) :
  all_white_space pre = true -> all_white_space mid1 = true ->
  all_white_space mid2 = true -> all_white_space post = true ->
  truthy label = true -> trim label = label -> count_pipes label = 0%nat ->
  truthy summ = true -> trim summ = summ -> count_pipes summ = 0%nat ->
  parse ((pre ++ label ++ mid1) ++ pipe :: (mid2 ++ summ ++ post)) = (label, summ).
Proof.
  intros Hpre Hm1 Hm2 Hpost Hl Htl Hcl Hs Hts Hcs.
  assert (H0 : count_pipes (pre ++ label ++ mid1) = 0%nat).
  { rewrite !count_pipes_app, Hcl, !count_pipes_ws by assumption. reflexivity. }
  assert (H1 : count_pipes (mid2 ++ summ ++ post) = 0%nat).
  { rewrite !count_pipes_app, Hcs, !count_pipes_ws by assumption. reflexivity. }
  assert (Hne : forall a x b, truthy x = true -> truthy (a ++ x ++ b) = true).
  { intros a x b Hx. destruct a; [|reflexivity]. now destruct x. }
  rewrite (surjective_pairing (parse _)). f_equal.
  - rewrite parse_sentiment, (spec_split_first_app _ _ H0). cbn [fst].
    now rewrite (Hne _ _ _ Hl), trim_pad.
  - rewrite parse_summary, (spec_split_first_app _ _ H0). cbn [snd].
    rewrite (spec_split_first_no_pipe _ H1). cbn [fst].
    now rewrite (Hne _ _ _ Hs), trim_pad.
Qed.

Lemma parse_well_formed_reply_witness :
  parse (lit "  Positive | User loved the login flow ") =
  (lit "Positive", lit "User loved the login flow").
Proof.
  exact (parse_well_formed_reply
           (lit "Positive") (lit "User loved the login flow")
           (lit "  ") (lit " ") (lit " ") (lit " ")
           eq_refl eq_refl eq_refl eq_refl
           eq_refl eq_refl eq_refl eq_refl eq_refl eq_refl).
Defined.

(** X4: a reply without the separator is kept whole as the summary,
    whitespace included, and its trimmed text is the sentiment; the empty
    reply gives [Neutral] and the empty summary. *)
Theorem parse_without_pipe (raw : jsstring) :
  count_pipes raw = 0%nat ->
  parse raw = (if truthy raw then trim raw else lit "Neutral", raw).
Proof.
  intros H. rewrite (surjective_pairing (parse raw)).
  rewrite parse_sentiment, parse_summary, (spec_split_first_no_pipe _ H).
  reflexivity.
Qed.

Lemma parse_without_pipe_witness :
  parse (lit " Negative, the app is slow ") =
  (lit "Negative, the app is slow", lit " Negative, the app is slow ").
Proof.
  exact (parse_without_pipe (lit " Negative, the app is slow ") eq_refl).
Defined.

(* ===================================================================== *)
(** ** More on ingestion *)
(* ===================================================================== *)

(** The write of the error record, run in a world. *)
Lemma fallback_run (env : Env) (t : jsstring) (fb : list row) (tr : list event) :
  db_insert env t error_sentiment error_summary (mkWorld fb tr) =
  if DB_accepts env tr t error_sentiment error_summary
  then (Normal tt,
        mkWorld (insert_row fb (Some t) (Some error_sentiment) (Some error_summary))
          (tr ++ [DbInsert t error_sentiment error_summary true]))
  else (Throw D1Error,
        mkWorld fb (tr ++ [DbInsert t error_sentiment error_summary false])).
Proof.
  unfold db_insert. cbn [trace feedback].
  now destruct (DB_accepts env tr t error_sentiment error_summary).
Qed.

(** The write of the parsed record followed by the [catch] block. *)
Lemma guarded_insert_run (env : Env) (t s m : jsstring)
    (fb : list row) (tr : list event) :
  try_catch (db_insert env t s m)
    (fun _ => db_insert env t error_sentiment error_summary) (mkWorld fb tr) =
  if DB_accepts env tr t s m
  then (Normal tt,
        mkWorld (insert_row fb (Some t) (Some s) (Some m))
          (tr ++ [DbInsert t s m true]))
  else db_insert env t error_sentiment error_summary
         (mkWorld fb (tr ++ [DbInsert t s m false])).
Proof.
  unfold try_catch, db_insert at 1. cbn [trace feedback].
  now destruct (DB_accepts env tr t s m).
Qed.

(** Splits a run of [ingest] on a non-empty text into its five endings. *)
Ltac ingest_cases env w t Ht :=
  rewrite (ingest_run env w t Ht); cbv zeta;
  let reply := fresh "reply" in
  destruct (AI_run env (trace w) model_name (prompt_messages t)) as [reply|];
  [ destruct (raw_text reply) as [| |?raw|?b] eqn:?Hraw |];
  rewrite ?guarded_insert_run, ?fallback_run;
  repeat match goal with
         | |- context [DB_accepts env ?tr t ?s ?m] =>
             destruct (DB_accepts env tr t s m) eqn:?Hok;
             rewrite ?fallback_run
         end;
  cbn [fst snd feedback trace].



(** X5: on every non-empty text the model is called exactly once, before
    any write, with the fixed model name, the fixed instruction as system
    message and the submitted text, unchanged, as user message; whatever
    the bindings answer there is no second call, and the one or two events
    that follow are INSERTs of that text. *)
Theorem ingest_calls_model_once (env : Env) (w : world) (t : jsstring) :
  truthy t = true ->
  exists inserts,
    trace (snd (ingest env (Some t) w)) =
      trace w ++ AiRun model_name (prompt_messages t) :: inserts /\
    forallb is_insert inserts = true /\
    (1 <= List.length inserts <= 2)%nat /\
    Forall (fun e => text_of_insert e = Some t) inserts /\
    nth_error (prompt_messages t) 1 = Some (mkMessage (lit "user") t).
Proof.
  intros Ht. ingest_cases env w t Ht;
    rewrite <- ?app_assoc; cbn [app];
    eexists; (split; [reflexivity|]);
    cbn [forallb is_insert List.length andb];
    repeat split; try lia; repeat constructor.
Qed.

Lemma ingest_calls_model_once_witness :
  exists inserts,
    trace (snd (ingest (env_of None (fun _ => true)) (Some (lit " ")) empty_world)) =
      [] ++ AiRun model_name (prompt_messages (lit " ")) :: inserts /\
    forallb is_insert inserts = true /\
    (1 <= List.length inserts <= 2)%nat /\
    Forall (fun e => text_of_insert e = Some (lit " ")) inserts /\
    nth_error (prompt_messages (lit " ")) 1 = Some (mkMessage (lit "user") (lit " ")).
Proof.
  exact (ingest_calls_model_once (env_of None (fun _ => true)) empty_world
           (lit " ") eq_refl).
Defined.

(** X6: when the model replies with a string but the store rejects the
    write of the parsed record, the [catch] block runs as for a model
    failure: a second INSERT is attempted and, the store accepting it, the
    one row added is the error record, the parsed sentiment and summary
    are lost and [ingest] completes normally. *)
Theorem ingest_rejected_write_falls_back
    (env : Env) (w : world) (t raw : jsstring) (reply : ai_reply) :
  truthy t = true ->
  AI_run env (trace w) model_name (prompt_messages t) = Some reply ->
  raw_text reply = JString raw ->
  DB_accepts env (trace w ++ [AiRun model_name (prompt_messages t)])
    t (fst (parse raw)) (snd (parse raw)) = false ->
  DB_accepts env
    (trace w ++ [AiRun model_name (prompt_messages t);
                 DbInsert t (fst (parse raw)) (snd (parse raw)) false])
    t (lit "Error") (lit "AI analysis failed") = true ->
  ingest env (Some t) w =
  (Normal tt,
   mkWorld
     (feedback w ++
      [mkRow (next_rowid (feedback w)) (Some t)
         (Some (lit "Error")) (Some (lit "AI analysis failed"))])
     (trace w ++
      [AiRun model_name (prompt_messages t);
       DbInsert t (fst (parse raw)) (snd (parse raw)) false;
       DbInsert t (lit "Error") (lit "AI analysis failed") true])).
Proof.
  intros Ht Hai Hraw Hno Hyes.
  rewrite (ingest_run env w t Ht), Hai, Hraw. cbv zeta.
  rewrite guarded_insert_run, Hno, fallback_run.
  rewrite <- app_assoc. cbn [app].
  change error_sentiment with (lit "Error").
  change error_summary with (lit "AI analysis failed").
  rewrite Hyes. unfold insert_row. rewrite <- app_assoc. reflexivity.
Qed.

Lemma ingest_rejected_write_falls_back_witness :
  ingest (env_of (Some (mkReply (JString (lit "Positive | Great app"))))
            (fun n => (0 <? n)%nat))
    (Some (lit "X")) empty_world =
  (Normal tt,
   mkWorld
     [mkRow 1 (Some (lit "X")) (Some (lit "Error")) (Some (lit "AI analysis failed"))]
     [AiRun model_name (prompt_messages (lit "X"));
      DbInsert (lit "X") (lit "Positive") (lit "Great app") false;
      DbInsert (lit "X") (lit "Error") (lit "AI analysis failed") true]).
Proof.
  exact (ingest_rejected_write_falls_back
           (env_of (Some (mkReply (JString (lit "Positive | Great app"))))
              (fun n => (0 <? n)%nat))
           empty_world (lit "X") (lit "Positive | Great app")
           (mkReply (JString (lit "Positive | Great app")))
           eq_refl eq_refl eq_refl eq_refl eq_refl).
Defined.

(** X7: when the model call succeeds with a [response] that is truthy and
    not a string, the parsing step throws, no parsed record is written,
    and the only INSERT attempted is the error record, which is the row
    added when the store accepts it. *)
Theorem ingest_non_string_response
    (env : Env) (w : world) (t : jsstring) (reply : ai_reply) :
  truthy t = true ->
  AI_run env (trace w) model_name (prompt_messages t) = Some reply ->
  response reply = JOther true ->
  trace (snd (ingest env (Some t) w)) =
    trace w ++
    [AiRun model_name (prompt_messages t);
     DbInsert t (lit "Error") (lit "AI analysis failed")
       (DB_accepts env (trace w ++ [AiRun model_name (prompt_messages t)])
          t (lit "Error") (lit "AI analysis failed"))] /\
  feedback (snd (ingest env (Some t) w)) =
    (if DB_accepts env (trace w ++ [AiRun model_name (prompt_messages t)])
          t (lit "Error") (lit "AI analysis failed")
     then feedback w ++
          [mkRow (next_rowid (feedback w)) (Some t)
             (Some (lit "Error")) (Some (lit "AI analysis failed"))]
     else feedback w).
Proof.
  intros Ht Hai Hresp.
  assert (Hraw : raw_text reply = JOther true)
    by (unfold raw_text, or_else; now rewrite Hresp).
  rewrite (ingest_run env w t Ht), Hai, Hraw. cbv zeta.
  rewrite fallback_run.
  change error_sentiment with (lit "Error").
  change error_summary with (lit "AI analysis failed").
  destruct (DB_accepts env _ t (lit "Error") (lit "AI analysis failed"));
    cbn [snd trace feedback]; rewrite <- app_assoc; split; reflexivity.
Qed.

Lemma ingest_non_string_response_witness :
  feedback (snd (ingest (env_of (Some (mkReply (JOther true))) (fun _ => true))
                   (Some (lit "X")) empty_world)) =
  [mkRow 1 (Some (lit "X")) (Some (lit "Error")) (Some (lit "AI analysis failed"))].
Proof.
  exact (proj2 (ingest_non_string_response
                  (env_of (Some (mkReply (JOther true))) (fun _ => true))
                  empty_world (lit "X") (mkReply (JOther true))
                  eq_refl eq_refl eq_refl)).
Defined.



(* ===================================================================== *)
(** ** Row ids and the order of the listing *)
(* ===================================================================== *)












Lemma insert_desc_perm (r : row) (l : list row) :
  Permutation (insert_desc r l) (r :: l).
Proof.
  induction l as [|x l IH]; [reflexivity|]. cbn [insert_desc].
  destruct (id x <=? id r)%Z; [reflexivity|].
  rewrite IH. apply perm_swap.
Qed.

Lemma insert_desc_sorted (r : row) (l : list row) :
  sorted_desc l -> sorted_desc (insert_desc r l).
Proof.
  unfold sorted_desc. induction 1 as [|x l Hs IH Hhd]; cbn [insert_desc].
  - repeat constructor.
  - destruct (Z.leb_spec (id x) (id r)) as [Hle|Hlt].
    + constructor; [now constructor|now constructor].
    + constructor; [exact IH|].
      destruct l as [|y l]; cbn [insert_desc].
      * constructor. lia.
      * inversion Hhd; subst.
        destruct (id y <=? id r)%Z; constructor; [lia|assumption].
Qed.

Lemma select_all_desc_perm (tbl : list row) :
  Permutation (select_all_desc tbl) tbl.
Proof.
  induction tbl as [|r tbl IH]; [reflexivity|].
  cbn [select_all_desc fold_right]. rewrite insert_desc_perm.
  now constructor.
Qed.

(** X11: the listing of the GET branch holds every row of the table once,
    no more and no fewer, ordered by id from the largest to the smallest,
    whatever the order and the ids of the rows in the table. *)
Theorem select_all_desc_sorted_permutation (tbl : list row) :
  Permutation (select_all_desc tbl) tbl /\
  sorted_desc (select_all_desc tbl) /\
  List.length (select_all_desc tbl) = List.length tbl.
Proof.
  split; [apply select_all_desc_perm|].
  split; [|apply Permutation_length, select_all_desc_perm].
  induction tbl as [|r tbl IH]; [constructor|].
  cbn [select_all_desc fold_right]. apply insert_desc_sorted, IH.
Qed.

(* ===================================================================== *)
(** ** More on the aggregate counts and the badges *)
(* ===================================================================== *)

Lemma count_label_perm (label : jsstring) (l l' : list row) :
  Permutation l l' -> count_label label l = count_label label l'.
Proof.
  induction 1 as [|x l l' _ IH|x y l|l l' l'' _ IH1 _ IH2].
  - reflexivity.
  - now rewrite !count_label_cons, IH.
  - rewrite !count_label_cons. lia.
  - now rewrite IH1.
Qed.

Lemma summarize_perm (l l' : list row) :
  Permutation l l' -> summarize l = summarize l'.
Proof.
  intros H. unfold summarize.
  now rewrite !(count_label_perm _ _ _ H).
Qed.

(** X12: the three counts do not depend on the order of the rows: computed
    on the listing of the GET branch they are the counts of the table in
    storage order, and they are the sums of the counts of any two pieces
    the rows are cut into. *)
Theorem summarize_order_independent (tbl l1 l2 : list row) :
  summarize (select_all_desc tbl) = summarize tbl /\
  summarize (l1 ++ l2) = summarize (l2 ++ l1) /\
  summarize (l1 ++ l2) =
    mkStats (positive (summarize l1) + positive (summarize l2))
            (negative (summarize l1) + negative (summarize l2))
            (neutral (summarize l1) + neutral (summarize l2)).
Proof.
  split; [|split].
  - apply summarize_perm, select_all_desc_perm.
  - apply summarize_perm, Permutation_app_comm.
  - unfold summarize. cbn [positive negative neutral].
    now rewrite !count_label_app.
Qed.

Lemma count_label_le (label : jsstring) (l : list row) :
  (count_label label l <= List.length l)%nat.
Proof.
  induction l as [|r l IH]; [constructor|]. rewrite count_label_cons.
  cbn [List.length]. destruct (includes (sentiment_text r) label); lia.
Qed.

(** X13: each of the three counts is at most the number of rows listed. *)
Theorem summarize_counts_bounded (results : list row) :
  (positive (summarize results) <= List.length results)%nat /\
  (negative (summarize results) <= List.length results)%nat /\
  (neutral (summarize results) <= List.length results)%nat.
Proof.
  repeat split; apply count_label_le.
Qed.

(** X14: when every row's sentiment is exactly [Positive], [Negative] or
    [Neutral], each row is counted in one bucket only and the three counts
    add up to the number of rows. *)
Theorem summarize_canonical_total (results : list row) :
  Forall canonical results ->
  (positive (summarize results) + negative (summarize results)
   + neutral (summarize results))%nat = List.length results.
Proof.
  unfold summarize. cbn [positive negative neutral].
  induction 1 as [|r l Hr _ IH]; [reflexivity|].
  rewrite !count_label_cons. cbn [List.length]. rewrite <- IH.
  unfold sentiment_text.
  destruct Hr as [-> | [-> | ->]]; cbn; lia.
Qed.

Lemma summarize_canonical_total_witness :
  (positive (summarize [with_sentiment "Positive"; with_sentiment "Neutral";
                        with_sentiment "Positive"])
   + negative (summarize [with_sentiment "Positive"; with_sentiment "Neutral";
                          with_sentiment "Positive"])
   + neutral (summarize [with_sentiment "Positive"; with_sentiment "Neutral";
                         with_sentiment "Positive"]))%nat = 3%nat.
Proof.
  apply (summarize_canonical_total
           [with_sentiment "Positive"; with_sentiment "Neutral";
            with_sentiment "Positive"]).
  constructor; [left; reflexivity|].
  constructor; [right; right; reflexivity|].
  constructor; [left; reflexivity|constructor].
Defined.

Lemma summarize_snoc_error (l : list row) (i : Z) (t m : option jsstring) :
  summarize (l ++ [mkRow i t (Some (lit "Error")) m]) = summarize l.
Proof.
  unfold summarize. rewrite !count_label_app.
  cbn -[count_label]. unfold count_label at 2 4 6. cbn.
  now rewrite !Nat.add_0_r.
Qed.

(** X15: a failed analysis never moves the chart: when the model call
    rejects, the three counts shown by the next GET are those shown
    before the POST, whether or not the store accepts the error record. *)
Theorem failed_analysis_keeps_counts (env : Env) (w : world) (t : jsstring) :
  truthy t = true ->
  AI_run env (trace w) model_name (prompt_messages t) = None ->
  summarize (select_all_desc (feedback (snd (ingest env (Some t) w)))) =
  summarize (select_all_desc (feedback w)).
Proof.
  intros Ht Hai.
  rewrite !(summarize_perm _ _ (select_all_desc_perm _)).
  rewrite (ingest_run env w t Ht), Hai. cbv zeta. rewrite fallback_run.
  destruct (DB_accepts env _ t error_sentiment error_summary);
    cbn [snd feedback]; [|reflexivity].
  apply summarize_snoc_error.
Qed.

Lemma failed_analysis_keeps_counts_witness :
  summarize (select_all_desc
               (feedback (snd (ingest (env_of None (fun _ => true))
                                 (Some (lit "X"))
                                 (mkWorld [with_sentiment "Positive"] []))))) =
  summarize (select_all_desc [with_sentiment "Positive"]).
Proof.
  exact (failed_analysis_keeps_counts (env_of None (fun _ => true))
           (mkWorld [with_sentiment "Positive"] []) (lit "X") eq_refl eq_refl).
Defined.

(** X16: the badge of a row follows the last of the three tests that
    succeeds: [bg-Error] exactly when the sentiment contains [Error];
    [bg-Negative] exactly when it contains [Negative] and not [Error];
    [bg-Positive] exactly when it contains [Positive] and neither of the
    other two; [bg-Neutral] in every other case, which covers a NULL
    sentiment and any label the tests do not know. *)
Theorem badgeClass_precedence (r : row) :
  (badgeClass r = lit "bg-Error" <-> contains (sentiment_text r) (lit "Error")) /\
  (badgeClass r = lit "bg-Negative" <->
   contains (sentiment_text r) (lit "Negative") /\
   ~ contains (sentiment_text r) (lit "Error")) /\
  (badgeClass r = lit "bg-Positive" <->
   contains (sentiment_text r) (lit "Positive") /\
   ~ contains (sentiment_text r) (lit "Negative") /\
   ~ contains (sentiment_text r) (lit "Error")) /\
  (badgeClass r = lit "bg-Neutral" <->
   ~ contains (sentiment_text r) (lit "Positive") /\
   ~ contains (sentiment_text r) (lit "Negative") /\
   ~ contains (sentiment_text r) (lit "Error")).
Proof.
  unfold badgeClass. cbv zeta.
  rewrite <- !includes_iff.
  destruct (includes (sentiment_text r) (lit "Positive"));
    destruct (includes (sentiment_text r) (lit "Negative"));
    destruct (includes (sentiment_text r) (lit "Error"));
    repeat split; try discriminate; try reflexivity;
    try (intros H; discriminate H);
    try (intros [H1 H2]; first [discriminate H1 | now elim H2 | destruct H2 as [H2 H3];
                                 first [discriminate H2 | now elim H2 | now elim H3]]).
Qed.

Lemma trimStart_suffix (s : jsstring) : exists a, s = a ++ trimStart s.
Proof.
  induction s as [|c s [a IH]]; [now exists []|]. cbn [trimStart].
  destruct (is_white_space c); [|now exists []].
  exists (c :: a). cbn [app]. now rewrite <- IH.
Qed.

Lemma trimEnd_prefix (s : jsstring) : exists b, s = trimEnd s ++ b.
Proof.
  unfold trimEnd. destruct (trimStart_suffix (rev s)) as [a Ha].
  exists (rev a). rewrite <- rev_app_distr, <- Ha. now rewrite rev_involutive.
Qed.

(** [trim] returns a piece of its argument. *)
Lemma trim_infix (s : jsstring) : exists a b, s = a ++ trim s ++ b.
Proof.
  unfold trim. destruct (trimStart_suffix s) as [a Ha].
  destruct (trimEnd_prefix (trimStart s)) as [b Hb].
  exists a, b. now rewrite <- Hb.
Qed.

(** A text is its part 0, followed when there is a separator by the
    separator and the rest. *)
Lemma spec_split_first_parts (raw : jsstring) :
  exists rest,
    raw = fst (spec_split_first raw) ++ rest /\
    match snd (spec_split_first raw) with
    | Some tl => rest = pipe :: tl
    | None => rest = []
    end.
Proof.
  induction raw as [|c s (rest & IH & Hr)]; [now exists []|].
  cbn [spec_split_first]. destruct (N.eqb_spec c pipe) as [->|Hne].
  - now exists (pipe :: s).
  - destruct (spec_split_first s) as [p0 p1]. cbn [fst snd] in *.
    exists rest. split; [|exact Hr]. cbn [app]. now rewrite <- IH.
Qed.

(** X17: whatever the row, the badge label and the summary cell are never
    empty and the badge class is one of the four classes of the style
    sheet; a row whose sentiment is NULL or empty, as the seed rows are,
    shows the label [Pending] on a [bg-Neutral] badge. *)
Theorem render_row_cells (r : row) :
  truthy (cell_label (render_row r)) = true /\
  truthy (cell_summary (render_row r)) = true /\
  In (cell_badge (render_row r))
     [lit "bg-Neutral"; lit "bg-Positive"; lit "bg-Negative"; lit "bg-Error"] /\
  (sentiment_text r = [] ->
   cell_label (render_row r) = lit "Pending" /\
   cell_badge (render_row r) = lit "bg-Neutral").
Proof.
  unfold render_row, or_placeholder, badgeClass, sentiment_text.
  cbn [cell_label cell_summary cell_badge].
  repeat split.
  - destruct (sentiment r) as [[|c s]|]; reflexivity.
  - destruct (summary r) as [[|c s]|]; reflexivity.
  - cbv zeta.
    destruct (includes _ (lit "Error")); [cbn [In]; tauto|].
    destruct (includes _ (lit "Negative")); [cbn [In]; tauto|].
    destruct (includes _ (lit "Positive")); cbn [In]; tauto.
  - destruct (sentiment r) as [[|c s]|]; try reflexivity; discriminate.
  - destruct (sentiment r) as [[|c s]|]; try reflexivity; discriminate.
Qed.

(** X18: the summary computed from a reply is either the reply itself,
    untouched, or a piece of it that holds no separator and has no
    whitespace at its ends. *)
Theorem parse_summary_shape (raw : jsstring) :
  snd (parse raw) = raw \/
  (count_pipes (snd (parse raw)) = 0%nat /\
   trim (snd (parse raw)) = snd (parse raw) /\
   contains raw (snd (parse raw))).
Proof.
  rewrite parse_summary.
  destruct (spec_split_first raw) as [p0 [tl|]] eqn:E0; cbn [snd];
    [|now left].
  destruct (truthy (fst (spec_split_first tl))); [|now left].
  right. repeat split.
  - apply count_pipes_trim, count_pipes_part0.
  - apply trim_idem.
  - destruct (spec_split_first_parts raw) as (d & Hd & Hd').
    rewrite E0 in Hd, Hd'. cbn [fst snd] in Hd, Hd'.
    destruct (spec_split_first_parts tl) as (c & Hc & _).
    remember (fst (spec_split_first tl)) as part1 eqn:Hpart1.
    destruct (trim_infix part1) as (a & b & Hab).
    exists (p0 ++ pipe :: a), (b ++ c).
    rewrite Hd, Hd', Hc, <- app_assoc. cbn [app]. do 2 f_equal.
    etransitivity; [apply (f_equal (fun x => x ++ c) Hab)|].
    now rewrite <- !app_assoc.
Qed.

Lemma ingest_written (env : Env) (w : world) (t : jsstring) :
  truthy t = true ->
  feedback (snd (ingest env (Some t) w)) = feedback w \/
  exists s m,
    feedback (snd (ingest env (Some t) w)) =
      insert_row (feedback w) (Some t) (Some s) (Some m) /\
    trim s = s /\ count_pipes s = 0%nat.
Proof.
  intros Ht.
  assert (Hp : forall raw, trim (fst (parse raw)) = fst (parse raw) /\
                           count_pipes (fst (parse raw)) = 0%nat).
  { intros raw. rewrite parse_sentiment.
    destruct (truthy (fst (spec_split_first raw))); [|now split].
    split; [apply trim_idem|apply count_pipes_trim, count_pipes_part0]. }
  ingest_cases env w t Ht;
    solve [ now left
          | right; do 2 eexists; split; [reflexivity|apply Hp]
          | right; do 2 eexists; split; [reflexivity|now split] ].
Qed.

(** X19: every row the worker writes is written whole: the text, the
    sentiment and the summary are all set (none is NULL), the text is
    the non-empty form field, and the sentiment holds no separator and
    has no whitespace at its ends. *)
Theorem fetch_writes_whole_rows (env : Env) (req : request) (w : world) :
  exists added,
    feedback (snd (fetch env req w)) = feedback w ++ added /\
    Forall (fun r => exists t s m,
                r = mkRow (next_rowid (feedback w)) (Some t) (Some s) (Some m) /\
                form_feedback req = Some t /\ truthy t = true /\
                trim s = s /\ count_pipes s = 0%nat) added.
Proof.
  assert (Hnone : exists added,
             feedback w = feedback w ++ added /\
             Forall (fun r => exists t s m,
                         r = mkRow (next_rowid (feedback w)) (Some t) (Some s) (Some m) /\
                         form_feedback req = Some t /\ truthy t = true /\
                         trim s = s /\ count_pipes s = 0%nat) added).
  { exists []. now rewrite app_nil_r. }
  unfold fetch.
  destruct (list_eq_dec N.eq_dec (method req) (lit "POST")) as [Hm|Hm];
    [|exact Hnone].
  unfold bind, ret.
  destruct (form_feedback req) as [t|] eqn:Hf; [|exact Hnone].
  destruct (truthy t) eqn:Ht; [|unfold ingest; rewrite Ht; exact Hnone].
  destruct (ingest_written env w t Ht) as [E|(s & m & E & Hs & Hc)];
    destruct (ingest env (Some t) w) as [[[]|e] w']; cbn [fst snd] in *;
    rewrite E; try exact Hnone;
    (eexists; split; [reflexivity|]; constructor; [|constructor];
     exists t, s, m; auto).
Qed.
